(** * Lecture 8: transactions and ACID in SQL

    A shallow embedding of the SQL cells of [lecture8.ipynb], the bank
    transfer demonstration on the [accounts] table, and the properties of
    the demonstrated transactions.

    The notebook loads the [sql] extension (cell-3) and sends the
    statements of each [%%sql] cell to a PostgreSQL session.  The
    embedding has one Rocq definition per statement form the cells use
    ([BEGIN], [COMMIT], [ROLLBACK], [UPDATE ... WHERE account_id = ...],
    [SELECT ... INTO], [DO $$ ... $$], ...) over an explicit session
    state, one for the way [%%sql] runs a statement, and one definition
    per cell, written statement by statement as in the notebook. *)

From stdpp Require Import gmap strings list fin_maps.
From Stdlib Require Import ZArith Ascii.

Local Open Scope Z_scope.

(** ** The column type [DECIMAL(10, 2)] *)

(** A [DECIMAL(10, 2)] value has ten significant digits, two of them
    after the point.  It is represented by its number of hundredths:
    [900.00] is [90000]. *)
Module Decimal.

Definition precision : Z := 10.
Definition scale : Z := 2.

(** Exclusive bound on the absolute value, in hundredths. *)
Definition limit : Z := 10 ^ precision.

(** Whether a value can be stored in the column or variable. *)
Definition fits (x : Z) : bool := (- limit <? x) && (x <? limit).

(** The literal [units.hundredths], such as [1000.00]. *)
Definition lit (units hundredths : Z) : Z := units * 10 ^ scale + hundredths.

(** An integer literal used where a decimal is expected, such as the
    [100] of [balance - 100]. *)
Definition of_int (n : Z) : Z := n * 10 ^ scale.

End Decimal.

(** ** The column type [VARCHAR(10)] *)

(** A key is a string of bytes, the UTF-8 encoding of its characters;
    the length [VARCHAR(10)] bounds is counted in characters.  A byte
    [10xxxxxx] continues the character begun before it. *)
Definition continuation_byte (c : ascii) : bool :=
  match c with
  | Ascii _ _ _ _ _ _ b6 b7 => b7 && negb b6
  end.


(** The first [n] characters of a string, and what follows them. *)
Fixpoint split_chars (n : nat) (s : string) : string * string :=
  match s with
  | EmptyString => (EmptyString, EmptyString)
  | String c s' =>
      if continuation_byte c
      then let (kept, excess) := split_chars n s' in (String c kept, excess)
      else match n with
           | O => (EmptyString, s)
           | S n' =>
               let (kept, excess) := split_chars n' s' in
               (String c kept, excess)
           end
  end.

Fixpoint all_spaces (s : string) : bool :=
  match s with
  | EmptyString => true
  | String c s' => Ascii.eqb c " "%char && all_spaces s'
  end.

(** ** The database and the session *)

(** [account_id VARCHAR(10) PRIMARY KEY]: the key is unique, so the rows
    of [accounts] form a finite map from [account_id] to [balance].  A
    relation has no row order, and neither has the map.  Every row the
    notebook inserts has a balance, and a balance is only ever replaced
    by a sum or difference of balances and amounts: no row holds NULL. *)
Abbreviation rows := (gmap string Z).

(** The database holds the [accounts] table or does not. *)
Abbreviation database := (option (gmap string Z)).

Inductive sql_error : Type :=
  | undefined_table
  | duplicate_table
  | unique_violation
  | string_data_right_truncation
  | numeric_value_out_of_range
  | in_failed_sql_transaction
  | invalid_transaction_termination.

(** The transaction status of the session: no transaction block open, a
    block open with its working copy of the database, or a block that
    failed and waits for its end. *)
Inductive tx_status : Type :=
  | Idle
  | Active (working : database)
  | Aborted.

Record session : Type := Session {
  committed : database;
  tx : tx_status
}.

(** What statements of the session read and write. *)
Definition visible (s : session) : database :=
  match tx s with
  | Active w => w
  | Idle | Aborted => committed s
  end.

(** How a transaction ended. *)
Inductive tx_end : Type := COMMITTED | ROLLED_BACK.

(** ** Commands: state and errors *)

Inductive result (A : Type) : Type :=
  | Ok (a : A) (s : session)
  | Err (e : sql_error) (s : session).
Arguments Ok {A} a s.
Arguments Err {A} e s.

Definition state_of {A} (r : result A) : session :=
  match r with Ok _ s | Err _ s => s end.

Definition value_of {A} (r : result A) : option A :=
  match r with Ok a _ => Some a | Err _ _ => None end.

Definition M (A : Type) : Type := session → result A.

Global Instance M_ret : MRet M := fun A (a : A) s => Ok a s.

Global Instance M_bind : MBind M := fun A B (k : A → M B) (m : M A) s =>
  match m s with
  | Ok a s' => k a s'
  | Err e s' => Err e s'
  end.

(** An error inside a transaction block makes the block fail. *)
Definition abort (s : session) : session :=
  match tx s with
  | Active _ => {| committed := committed s; tx := Aborted |}
  | Idle | Aborted => s
  end.

Definition raise {A} (e : sql_error) : M A := fun s => Err e (abort s).

(** One statement.  Outside a transaction block its effect is committed
    at once; inside, it works on the block's copy; in a failed block it
    is refused. *)
Definition statement {A} (body : database → sql_error + A * database) : M A :=
  fun s =>
    match tx s with
    | Idle =>
        match body (committed s) with
        | inr (a, d) => Ok a {| committed := d; tx := Idle |}
        | inl e => Err e s
        end
    | Active w =>
        match body w with
        | inr (a, w') => Ok a {| committed := committed s; tx := Active w' |}
        | inl e => Err e {| committed := committed s; tx := Aborted |}
        end
    | Aborted => Err in_failed_sql_transaction s
    end.

(** [BEGIN], as the engine runs it: "Use the BEGIN statement to start a
    new transaction."  In an open block it only warns.  The block stays
    open until the session sends [COMMIT] or [ROLLBACK]; the notebook's
    session does so right after the statement, see [sql]. *)
Definition BEGIN : M unit := fun s =>
  match tx s with
  | Idle => Ok tt {| committed := committed s; tx := Active (committed s) |}
  | Active _ => Ok tt s
  | Aborted => Err in_failed_sql_transaction s
  end.

(** [COMMIT]: "save all changes made during the transaction."  The end
    of a failed block discards its changes. *)
Definition COMMIT : M tx_end := fun s =>
  match tx s with
  | Active w => Ok COMMITTED {| committed := w; tx := Idle |}
  | Idle => Ok COMMITTED s
  | Aborted => Ok ROLLED_BACK {| committed := committed s; tx := Idle |}
  end.

(** [ROLLBACK]: "undo all changes made during the transaction." *)
Definition ROLLBACK : M tx_end := fun s =>
  Ok ROLLED_BACK {| committed := committed s; tx := Idle |}.

(** ** How the notebook sends a statement *)

(** [%%sql]: the extension sends the statements of a cell one after the
    other and commits after each one that succeeds; at the first
    statement that fails the cell stops.  A transaction block opened by
    a statement of the cell is therefore closed before the next
    statement is sent, and every statement of a cell starts outside any
    block. *)
Definition sql {A} (stmt : M A) : M A := fun s =>
  match stmt s with
  | Ok a s' => Ok a (state_of (COMMIT s'))
  | Err e s' => Err e s'
  end.

(** ** Statements on [accounts] *)

(** [DROP TABLE IF EXISTS accounts] *)
Definition DROP_TABLE_IF_EXISTS_accounts : M unit :=
  statement (fun _ => inr (tt, None)).

(** [CREATE TABLE accounts (account_id VARCHAR(10) PRIMARY KEY,
    balance DECIMAL(10, 2))]: the new table is empty.  The only
    constraint declared is the primary key; [balance] carries none. *)
Definition CREATE_TABLE_accounts : M unit :=
  statement (fun d =>
    match d with
    | Some _ => inl duplicate_table
    | None => inr (tt, Some ∅)
    end).

(** A value assigned to [account_id VARCHAR(10)]: characters beyond the
    tenth are dropped when they are all spaces, and refused
    otherwise. *)
Definition VARCHAR_10 (value : string) : sql_error + string :=
  let (kept, excess) := split_chars 10 value in
  if all_spaces excess then inr kept
  else inl string_data_right_truncation.

(** A value assigned to [balance DECIMAL(10, 2)]. *)
Definition DECIMAL_10_2 (value : Z) : sql_error + Z :=
  if Decimal.fits value then inr value
  else inl numeric_value_out_of_range.

(** The rows of a [VALUES] list brought to the column types, before any
    row is stored: an error of a column type in any row comes before
    the check of the keys. *)
Fixpoint coerce_rows (VALUES : list (string * Z))
  : sql_error + list (string * Z) :=
  match VALUES with
  | [] => inr []
  | (account_id, balance) :: VALUES' =>
      match VARCHAR_10 account_id with
      | inl e => inl e
      | inr account_id' =>
          match DECIMAL_10_2 balance with
          | inl e => inl e
          | inr balance' =>
              match coerce_rows VALUES' with
              | inl e => inl e
              | inr rows' => inr ((account_id', balance') :: rows')
              end
          end
      end
  end.

(** The rows stored one after the other, under the primary key. *)
Fixpoint insert_rows (rows : list (string * Z)) (T : gmap string Z)
  : sql_error + gmap string Z :=
  match rows with
  | [] => inr T
  | (account_id, balance) :: rows' =>
      match T !! account_id with
      | Some _ => inl unique_violation
      | None => insert_rows rows' (<[account_id := balance]> T)
      end
  end.

(** [INSERT INTO accounts (account_id, balance) VALUES ... RETURNING *]:
    the result is the rows as stored. *)
Definition INSERT_INTO_accounts (VALUES : list (string * Z))
  : M (list (string * Z)) :=
  statement (fun d =>
    match d with
    | None => inl undefined_table
    | Some T =>
        match coerce_rows VALUES with
        | inl e => inl e
        | inr rows =>
            match insert_rows rows T with
            | inl e => inl e
            | inr T' => inr (rows, Some T')
            end
        end
    end).

(** [UPDATE accounts SET balance = <expression of balance>
    WHERE account_id = <key>].  The key is unique: at most one row is
    changed.  The result is the number of rows affected. *)
Definition UPDATE_accounts (SET_balance : Z → Z) (WHERE_account_id : string)
  : M nat :=
  statement (fun d =>
    match d with
    | None => inl undefined_table
    | Some T =>
        match T !! WHERE_account_id with
        | None => inr (0%nat, Some T)
        | Some balance =>
            if Decimal.fits (SET_balance balance)
            then inr (1%nat, Some (<[WHERE_account_id := SET_balance balance]> T))
            else inl numeric_value_out_of_range
        end
    end).

(** [SELECT * FROM accounts] *)
Definition SELECT_FROM_accounts : M (gmap string Z) :=
  statement (fun d =>
    match d with
    | None => inl undefined_table
    | Some T => inr (T, d)
    end).

(** [SELECT balance INTO <variable> FROM accounts WHERE account_id =
    <key>]: the variable is NULL ([None]) when no row has the key. *)
Definition SELECT_balance_INTO (WHERE_account_id : string) : M (option Z) :=
  statement (fun d =>
    match d with
    | None => inl undefined_table
    | Some T => inr (T !! WHERE_account_id, d)
    end).

(** ** Procedural blocks *)

(** What becomes of a block run inside an open transaction block: a
    [COMMIT] or [ROLLBACK] of the block would have ended the enclosing
    transaction, which the engine refuses, failing the transaction. *)
Definition no_termination {A} (s : session) (r : result A) : result A :=
  match tx (state_of r) with
  | Idle =>
      Err invalid_transaction_termination
          {| committed := committed s; tx := Aborted |}
  | Active _ | Aborted => r
  end.

(** [DO $$ ... $$].  Outside a transaction block the block runs in a
    transaction of its own, which a [COMMIT] or [ROLLBACK] of the block
    may end, and which is committed when the block ends and undone when
    the block fails.  Inside a transaction block it runs in that
    transaction and may not end it. *)
Definition DO {A} (block : M A) : M A := fun s =>
  match tx s with
  | Idle =>
      match block {| committed := committed s; tx := Active (committed s) |} with
      | Ok a s' => Ok a (state_of (COMMIT s'))
      | Err e s' => Err e {| committed := committed s'; tx := Idle |}
      end
  | Active _ => no_termination s (block s)
  | Aborted => Err in_failed_sql_transaction s
  end.

(** [DECLARE <variable> DECIMAL(10, 2) := <value>] *)
Definition DECLARE_DECIMAL (value : Z) : M Z := fun s =>
  if Decimal.fits value then Ok value s
  else raise numeric_value_out_of_range s.

(** [<variable> >= <constant>] on a variable that may be NULL. *)
Definition ge (x : option Z) (y : Z) : option bool :=
  (fun v => y <=? v) <$> x.

(** [IF ... THEN ... ELSE ... END IF]: a NULL condition takes the
    [ELSE] branch. *)
Definition IF {A} (condition : option bool) (THEN ELSE : M A) : M A :=
  match condition with
  | Some true => THEN
  | Some false | None => ELSE
  end.

(** ** The cells of the notebook *)

(** cell-8: the sample data. *)
Definition cell_8 : M (list (string * Z)) :=
  sql DROP_TABLE_IF_EXISTS_accounts ;;
  sql CREATE_TABLE_accounts ;;
  sql (INSERT_INTO_accounts
         [ ("A", Decimal.lit 1000 00);
           ("B", Decimal.lit 500 00) ]).

(** cell-22: the bank transfer as a transaction. *)
Definition cell_22 : M tx_end :=
  sql BEGIN ;;
  sql (UPDATE_accounts (fun balance => balance - Decimal.of_int 100) "A") ;;
  sql (UPDATE_accounts (fun balance => balance + Decimal.of_int 100) "B") ;;
  sql COMMIT.

(** cell-35: depositing money to an account, in a [DO] block. *)
Definition cell_35 : M nat :=
  sql (DO (deposit_amount ← DECLARE_DECIMAL (Decimal.of_int 100);
           UPDATE_accounts (fun balance => balance + deposit_amount) "A")).

(** cell-41: the bank transfer with a variable, in a [DO] block. *)
Definition cell_41 : M tx_end :=
  sql BEGIN ;;
  sql (DO (transaction_amount ← DECLARE_DECIMAL (Decimal.of_int 100);
           UPDATE_accounts (fun balance => balance - transaction_amount) "A" ;;
           UPDATE_accounts (fun balance => balance + transaction_amount) "B" ;;
           COMMIT)).

(** cell-48: the transfer with a consistency check and [ROLLBACK]. *)
Definition cell_48 : M tx_end :=
  sql BEGIN ;;
  sql (DO (transaction_amount ← DECLARE_DECIMAL (Decimal.of_int 10000);
           UPDATE_accounts (fun balance => balance - transaction_amount) "A" ;;
           UPDATE_accounts (fun balance => balance + transaction_amount) "B" ;;
           account_a_balance ← SELECT_balance_INTO "A";
           IF (ge account_a_balance 0)
             COMMIT
             ROLLBACK)).

(** cells 20, 24, 33, 37, 40, 43, 46 and 50 *)
Definition cell_select : M (gmap string Z) := sql SELECT_FROM_accounts.

(** ** The operations behind the cells *)

(** The shape of cell-22 for any two accounts and amount. *)
Definition transfer (source destination : string) (amount : Z) : M tx_end :=
  sql BEGIN ;;
  sql (UPDATE_accounts (fun balance => balance - amount) source) ;;
  sql (UPDATE_accounts (fun balance => balance + amount) destination) ;;
  sql COMMIT.

(** The shape of cell-41. *)
Definition transfer_block (source destination : string) (amount : Z)
  : M tx_end :=
  sql BEGIN ;;
  sql (DO (transaction_amount ← DECLARE_DECIMAL amount;
           UPDATE_accounts (fun balance => balance - transaction_amount) source ;;
           UPDATE_accounts (fun balance => balance + transaction_amount)
             destination ;;
           COMMIT)).

(** The shape of cell-35. *)
Definition deposit (account : string) (amount : Z) : M nat :=
  sql (DO (deposit_amount ← DECLARE_DECIMAL amount;
           UPDATE_accounts (fun balance => balance + deposit_amount) account)).

(** The block of cell-48 up to the consistency check: the two updates
    and the read of the source balance. *)
Definition updates_then_read (source destination : string) (amount : Z)
  : M (option Z) :=
  transaction_amount ← DECLARE_DECIMAL amount;
  UPDATE_accounts (fun balance => balance - transaction_amount) source ;;
  UPDATE_accounts (fun balance => balance + transaction_amount) destination ;;
  SELECT_balance_INTO source.

(** The decision of cell-48 on the balance read. *)
Definition commit_or_rollback (source_balance : option Z) : M tx_end :=
  IF (ge source_balance 0)
    COMMIT
    ROLLBACK.

(** The shape of cell-48. *)
Definition transfer_with_check (source destination : string) (amount : Z)
  : M tx_end :=
  sql BEGIN ;;
  sql (DO (transaction_amount ← DECLARE_DECIMAL amount;
           UPDATE_accounts (fun balance => balance - transaction_amount) source ;;
           UPDATE_accounts (fun balance => balance + transaction_amount)
             destination ;;
           source_balance ← SELECT_balance_INTO source;
           IF (ge source_balance 0)
             COMMIT
             ROLLBACK)).

(** ** States of the demonstration *)

(** The table with accounts A and B only. *)
Definition accounts (balance_A balance_B : Z) : gmap string Z :=
  <["A" := balance_A]> (<["B" := balance_B]> ∅).

(** A session outside any transaction block, with the given table. *)
Definition idle (T : gmap string Z) : session :=
  {| committed := Some T; tx := Idle |}.

(** The balance of an account, 0 when the account is absent. *)
Definition balance_of (T : gmap string Z) (account_id : string) : Z :=
  default 0 (T !! account_id).

(** The [account_id]s present. *)
Definition ids (d : database) : gset string :=
  match d with
  | Some T => dom T
  | None => ∅
  end.

(** The invariant the lecture teaches: no balance is negative. *)
Definition consistent (d : database) : Prop :=
  match d with
  | Some T => ∀ account_id balance, T !! account_id = Some balance → 0 ≤ balance
  | None => True
  end.

(** A cell run for its effect on the session. *)
Definition void {A} (cell : M A) : M unit := cell ;; mret tt.

(** The cells after the sample data, in the order of the notebook. *)
Definition cells_after_insert : list (M unit) :=
  [ void cell_select; void cell_22; void cell_select;
    void cell_select; void cell_35; void cell_select;
    void cell_select; void cell_41; void cell_select;
    void cell_select; void cell_48; void cell_select ].

(** The session after each cell of a list, run one after the other. *)
Fixpoint trace (cells : list (M unit)) (s : session) : list session :=
  match cells with
  | [] => []
  | cell :: cells' =>
      let s' := state_of (cell s) in
      s' :: trace cells' s'
  end.

(** What the [SELECT * FROM accounts] cells of a list return. *)
Definition outputs : M (list (gmap string Z)) :=
  cell_8 ;;
  o20 ← cell_select; cell_22 ;;
  o24 ← cell_select;
  o33 ← cell_select; cell_35 ;;
  o37 ← cell_select;
  o40 ← cell_select; cell_41 ;;
  o43 ← cell_select;
  o46 ← cell_select; cell_48 ;;
  o50 ← cell_select;
  mret [o20; o24; o33; o37; o40; o43; o46; o50].

(** Sessions in which the working copy has the rows of the committed
    table. *)
Definition same_ids (s : session) : Prop :=
  ids (visible s) = ids (committed s).

(** A command that neither adds nor removes a row. *)
Definition keeps_ids {A} (m : M A) : Prop :=
  ∀ s, same_ids s →
    same_ids (state_of (m s)) ∧
    ids (committed (state_of (m s))) = ids (committed s).

(** ** The transfer without a transaction *)

(** cell-10: the debit and the credit sent as two statements, with no
    [BEGIN] and [COMMIT] around them. *)
Definition cell_10 : M nat :=
  sql (UPDATE_accounts (fun balance => balance - Decimal.of_int 100) "A") ;;
  sql (UPDATE_accounts (fun balance => balance + Decimal.of_int 100) "B").

(** The shape of cell-10. *)
Definition naive_transfer (source destination : string) (amount : Z) : M nat :=
  sql (UPDATE_accounts (fun balance => balance - amount) source) ;;
  sql (UPDATE_accounts (fun balance => balance + amount) destination).

(** The first statement of a transfer, all that has run when the crash
    cell-10 simulates happens "before the credit operation". *)
Definition debit (source : string) (amount : Z) : M nat :=
  sql (UPDATE_accounts (fun balance => balance - amount) source).

(** ** Measures of a table *)

(** The money held by all accounts together. *)
Definition total (T : gmap string Z) : Z :=
  map_fold (fun _ balance sum => balance + sum) 0 T.

(** Both updates of a transfer applied to a table, rows that are absent
    staying absent. *)
Definition both_updates (source destination : string) (amount : Z)
    (T : gmap string Z) : gmap string Z :=
  alter (fun balance => balance + amount) destination
    (alter (fun balance => balance - amount) source T).

(** A command that, run inside an open transaction block, leaves the
    committed database alone and does not end the block: it succeeds
    with the block still open, or fails the block. *)
Definition in_block {A} (m : M A) : Prop :=
  ∀ c w,
    match m (Session c (Active w)) with
    | Ok _ s' => committed s' = c ∧ ∃ w', tx s' = Active w'
    | Err _ s' => s' = Session c Aborted
    end.

(** * Properties *)

(** ** The cells are instances of the operations *)

Lemma cell_22_transfer : cell_22 = transfer "A" "B" (Decimal.of_int 100).
Proof. reflexivity. Qed.

Lemma cell_35_deposit : cell_35 = deposit "A" (Decimal.of_int 100).
Proof. reflexivity. Qed.

Lemma cell_41_transfer_block :
  cell_41 = transfer_block "A" "B" (Decimal.of_int 100).
Proof. reflexivity. Qed.

Lemma cell_48_transfer_with_check :
  cell_48 = transfer_with_check "A" "B" (Decimal.of_int 10000).
Proof. reflexivity. Qed.

(** The outputs recorded in the notebook under cells 20 to 50. *)
Lemma outputs_as_recorded (d : database) :
  value_of (outputs (Session d Idle)) =
    Some [ accounts (Decimal.lit 1000 00) (Decimal.lit 500 00);
           accounts (Decimal.lit 900 00) (Decimal.lit 600 00);
           accounts (Decimal.lit 900 00) (Decimal.lit 600 00);
           accounts (Decimal.lit 1000 00) (Decimal.lit 600 00);
           accounts (Decimal.lit 1000 00) (Decimal.lit 600 00);
           accounts (Decimal.lit 900 00) (Decimal.lit 700 00);
           accounts (Decimal.lit 900 00) (Decimal.lit 700 00);
           accounts (Decimal.lit 900 00) (Decimal.lit 700 00) ].
Proof. reflexivity. Qed.

(** ** Reading the balances of a table *)

Lemma accounts_lookup_A (a b : Z) : accounts a b !! "A" = Some a.
Proof. reflexivity. Qed.

Lemma accounts_lookup_B (a b : Z) : accounts a b !! "B" = Some b.
Proof. reflexivity. Qed.

Lemma accounts_ids (a b : Z) : dom (accounts a b) = {["A"; "B"]}.
Proof. unfold accounts. rewrite !dom_insert_L. set_solver. Qed.

Lemma accounts_size (a b : Z) : size (accounts a b) = 2%nat.
Proof. reflexivity. Qed.

(** ** The checkpoints of the demonstration *)

(** C4: whatever the database held before, after cell-8 the accounts
    table holds exactly two rows, A with balance 1000.00 and B with
    balance 500.00. *)
Theorem initial_state_after_insert (d : database) :
  let T := accounts (Decimal.lit 1000 00) (Decimal.lit 500 00) in
  cell_8 (Session d Idle) =
    Ok [("A", Decimal.lit 1000 00); ("B", Decimal.lit 500 00)] (idle T)
  ∧ size T = 2%nat
  ∧ dom T = {["A"; "B"]}
  ∧ T !! "A" = Some (Decimal.lit 1000 00)
  ∧ T !! "B" = Some (Decimal.lit 500 00).
Proof.
  cbv zeta. split; [reflexivity|].
  split; [apply accounts_size|].
  split; [apply accounts_ids|].
  split; reflexivity.
Qed.

(** C5: from A = 1000.00 and B = 500.00, the transfer of cell-22 is
    committed and leaves A = 900.00 and B = 600.00. *)
Theorem committed_transfer_balances :
  cell_22 (idle (accounts (Decimal.lit 1000 00) (Decimal.lit 500 00))) =
    Ok COMMITTED (idle (accounts (Decimal.lit 900 00) (Decimal.lit 600 00))).
Proof. reflexivity. Qed.

(** C7: from A = 1000.00 and B = 600.00, the transfer of cell-41,
    inside a procedural block, leaves A = 900.00 and B = 700.00. *)
Theorem second_transfer_balances :
  cell_41 (idle (accounts (Decimal.lit 1000 00) (Decimal.lit 600 00))) =
    Ok COMMITTED (idle (accounts (Decimal.lit 900 00) (Decimal.lit 700 00))).
Proof. reflexivity. Qed.

(** C1: from A = 900.00 and B = 700.00, the attempted transfer of 10000
    of cell-48 takes the rollback path and leaves the session as it was
    before the transaction began: A = 900.00 and B = 700.00. *)
Theorem rollback_leaves_balances_unchanged :
  let T := accounts (Decimal.lit 900 00) (Decimal.lit 700 00) in
  cell_48 (idle T) = Ok ROLLED_BACK (idle T)
  ∧ T !! "A" = Some (Decimal.lit 900 00)
  ∧ T !! "B" = Some (Decimal.lit 700 00).
Proof. cbv zeta. repeat split; reflexivity. Qed.

(** ** Running statements step by step *)

Lemma bind_Ok {A B} (m : M A) (k : A → M B) s a s' :
  m s = Ok a s' → (m ≫= k) s = k a s'.
Proof. intros H. unfold mbind, M_bind. by rewrite H. Qed.

Lemma bind_Err {A B} (m : M A) (k : A → M B) s e s' :
  m s = Err e s' → (m ≫= k) s = Err e s'.
Proof. intros H. unfold mbind, M_bind. by rewrite H. Qed.

Lemma bind_assoc {A B C} (m : M A) (k : A → M B) (h : B → M C) s :
  ((m ≫= k) ≫= h) s = (a ← m; k a ≫= h) s.
Proof. unfold mbind, M_bind. by destruct (m s). Qed.

(** *** Statements of a cell *)

Lemma COMMIT_ends (s : session) : tx (state_of (COMMIT s)) = Idle.
Proof. by destruct s as [c [|w|]]. Qed.

Lemma sql_Ok {A} (stmt : M A) s a (T : gmap string Z) :
  stmt s = Ok a (idle T) → sql stmt s = Ok a (idle T).
Proof. intros H. unfold sql. by rewrite H. Qed.

Lemma sql_Err {A} (stmt : M A) s e s' :
  stmt s = Err e s' → sql stmt s = Err e s'.
Proof. intros H. unfold sql. by rewrite H. Qed.

Lemma sql_ext {A} (stmt stmt' : M A) :
  (∀ s, stmt s = stmt' s) → ∀ s, sql stmt s = sql stmt' s.
Proof. intros H s. unfold sql. by rewrite H. Qed.

(** The block that [BEGIN] opens is closed by the commit that follows
    the statement. *)
Lemma sql_BEGIN_idle (T : gmap string Z) : sql BEGIN (idle T) = Ok tt (idle T).
Proof. reflexivity. Qed.

Lemma sql_COMMIT_idle (T : gmap string Z) :
  sql COMMIT (idle T) = Ok COMMITTED (idle T).
Proof. reflexivity. Qed.

Lemma UPDATE_idle (f : Z → Z) (k : string) (T : gmap string Z) b :
  T !! k = Some b → Decimal.fits (f b) = true →
  UPDATE_accounts f k (idle T) = Ok 1%nat (idle (<[k := f b]> T)).
Proof.
  intros Hk Hf. unfold UPDATE_accounts, statement, idle. simpl.
  by rewrite Hk, Hf.
Qed.

Lemma sql_UPDATE_idle (f : Z → Z) (k : string) (T : gmap string Z) b :
  T !! k = Some b → Decimal.fits (f b) = true →
  sql (UPDATE_accounts f k) (idle T) = Ok 1%nat (idle (<[k := f b]> T)).
Proof. intros Hk Hf. by apply sql_Ok, UPDATE_idle. Qed.

Lemma sql_UPDATE_idle_overflow (f : Z → Z) (k : string) (T : gmap string Z) b :
  T !! k = Some b → Decimal.fits (f b) = false →
  sql (UPDATE_accounts f k) (idle T) = Err numeric_value_out_of_range (idle T).
Proof.
  intros Hk Hf. apply sql_Err.
  unfold UPDATE_accounts, statement, idle. simpl. by rewrite Hk, Hf.
Qed.

Lemma sql_UPDATE_idle_missing (f : Z → Z) (k : string) (T : gmap string Z) :
  T !! k = None →
  sql (UPDATE_accounts f k) (idle T) = Ok 0%nat (idle T).
Proof.
  intros Hk. apply sql_Ok.
  unfold UPDATE_accounts, statement, idle. simpl. by rewrite Hk.
Qed.

(** *** Blocks *)

(** A block sent from outside a transaction runs in a transaction of
    its own, committed at its end ... *)
Lemma sql_DO_Ok {A} (block : M A) (T : gmap string Z) a s' :
  block (Session (Some T) (Active (Some T))) = Ok a s' →
  sql (DO block) (idle T) = Ok a (state_of (COMMIT s')).
Proof.
  intros H. unfold sql, DO, idle. simpl. rewrite H. simpl.
  by destruct s' as [c [|w|]].
Qed.

(** ... and undone when it fails. *)
Lemma sql_DO_Err {A} (block : M A) (T : gmap string Z) e s' :
  block (Session (Some T) (Active (Some T))) = Err e s' →
  sql (DO block) (idle T) = Err e (Session (committed s') Idle).
Proof. intros H. unfold sql, DO, idle. simpl. by rewrite H. Qed.

(** Reduce a goal on a block sent from an idle session to the run of
    the block in its own transaction. *)
Ltac in_block_Ok tac :=
  etransitivity; [apply sql_DO_Ok; tac | reflexivity].
Ltac in_block_Err tac :=
  etransitivity; [apply sql_DO_Err; tac | reflexivity].

Lemma DO_ext {A} (block block' : M A) :
  (∀ s, block s = block' s) → ∀ s, DO block s = DO block' s.
Proof. intros H s. unfold DO. destruct (tx s); by rewrite ?H. Qed.

Lemma DECLARE_fits (v : Z) s :
  Decimal.fits v = true → DECLARE_DECIMAL v s = Ok v s.
Proof. intros H. unfold DECLARE_DECIMAL. by rewrite H. Qed.

Lemma DECLARE_overflow (v : Z) c w :
  Decimal.fits v = false →
  DECLARE_DECIMAL v (Session c (Active w)) =
    Err numeric_value_out_of_range (Session c Aborted).
Proof. intros H. unfold DECLARE_DECIMAL. by rewrite H. Qed.

Lemma UPDATE_active (f : Z → Z) (k : string) (T : gmap string Z) b c :
  T !! k = Some b → Decimal.fits (f b) = true →
  UPDATE_accounts f k (Session c (Active (Some T))) =
    Ok 1%nat (Session c (Active (Some (<[k := f b]> T)))).
Proof.
  intros Hk Hf. unfold UPDATE_accounts, statement. simpl.
  by rewrite Hk, Hf.
Qed.

Lemma UPDATE_active_overflow (f : Z → Z) (k : string) (T : gmap string Z) b c :
  T !! k = Some b → Decimal.fits (f b) = false →
  UPDATE_accounts f k (Session c (Active (Some T))) =
    Err numeric_value_out_of_range (Session c Aborted).
Proof.
  intros Hk Hf. unfold UPDATE_accounts, statement. simpl.
  by rewrite Hk, Hf.
Qed.

Lemma UPDATE_active_missing (f : Z → Z) (k : string) (T : gmap string Z) c :
  T !! k = None →
  UPDATE_accounts f k (Session c (Active (Some T))) =
    Ok 0%nat (Session c (Active (Some T))).
Proof.
  intros Hk. unfold UPDATE_accounts, statement. simpl. by rewrite Hk.
Qed.

Lemma SELECT_INTO_active (k : string) (T : gmap string Z) c :
  SELECT_balance_INTO k (Session c (Active (Some T))) =
    Ok (T !! k) (Session c (Active (Some T))).
Proof. reflexivity. Qed.

(** Both updates of a transfer, inside the transaction of a block. *)
Lemma two_updates_active (T : gmap string Z) (s d : string) (t bs bd : Z) c :
  s ≠ d → T !! s = Some bs → T !! d = Some bd →
  Decimal.fits (bs - t) = true → Decimal.fits (bd + t) = true →
  (UPDATE_accounts (fun balance => balance - t) s ;;
   UPDATE_accounts (fun balance => balance + t) d)
    (Session c (Active (Some T))) =
    Ok 1%nat (Session c (Active (Some (<[d := bd + t]> (<[s := bs - t]> T))))).
Proof.
  intros Hsd Hs Hd Fs Fd.
  rewrite (bind_Ok _ _ _ _ _
    (UPDATE_active (fun balance => balance - t) s T bs c Hs Fs)).
  apply (UPDATE_active (fun balance => balance + t) d _ bd); [|done].
  by rewrite lookup_insert_ne.
Qed.

(** A refused update of a transfer, inside the transaction of a block. *)
Lemma two_updates_active_overflow
    (T : gmap string Z) (s d : string) (t bs bd : Z) c :
  s ≠ d → T !! s = Some bs → T !! d = Some bd →
  Decimal.fits (bs - t) && Decimal.fits (bd + t) = false →
  (UPDATE_accounts (fun balance => balance - t) s ;;
   UPDATE_accounts (fun balance => balance + t) d)
    (Session c (Active (Some T))) =
    Err numeric_value_out_of_range (Session c Aborted).
Proof.
  intros Hsd Hs Hd F.
  destruct (Decimal.fits (bs - t)) eqn:Fs.
  - rewrite (bind_Ok _ _ _ _ _
      (UPDATE_active (fun balance => balance - t) s T bs c Hs Fs)).
    apply (UPDATE_active_overflow (fun balance => balance + t) d _ bd);
      [by rewrite lookup_insert_ne | done].
  - apply bind_Err.
    by apply (UPDATE_active_overflow (fun balance => balance - t) s T bs).
Qed.

(** The block of cell-48 is its two updates and the read, followed by
    the decision. *)
Lemma transfer_with_check_split (s d : string) (t : Z) (σ : session) :
  transfer_with_check s d t σ =
    (sql BEGIN ;;
     sql (DO (updates_then_read s d t ≫= commit_or_rollback))) σ.
Proof.
  unfold transfer_with_check.
  unfold mbind at 1 6, M_bind at 1 6.
  destruct (sql BEGIN σ) as [[] σ1|]; [|done].
  apply sql_ext, DO_ext. intros σ2.
  unfold updates_then_read, commit_or_rollback, mbind, M_bind.
  destruct (DECLARE_DECIMAL t σ2) as [a σ3|]; [|done].
  destruct (UPDATE_accounts _ s σ3) as [? σ4|]; [|done].
  destruct (UPDATE_accounts _ d σ4) as [? σ5|]; [|done].
  by destruct (SELECT_balance_INTO s σ5).
Qed.

(** ** The transfer operation *)

(** A transfer whose two updates succeed. *)
Lemma transfer_commits (T : gmap string Z) (s d : string) (t bs bd : Z) :
  s ≠ d → T !! s = Some bs → T !! d = Some bd →
  Decimal.fits (bs - t) = true → Decimal.fits (bd + t) = true →
  transfer s d t (idle T) =
    Ok COMMITTED (idle (<[d := bd + t]> (<[s := bs - t]> T))).
Proof.
  intros Hsd Hs Hd Fs Fd. unfold transfer.
  rewrite (bind_Ok _ _ _ _ _ (sql_BEGIN_idle T)).
  rewrite (bind_Ok _ _ _ _ _
    (sql_UPDATE_idle (fun balance => balance - t) s T bs Hs Fs)).
  rewrite (bind_Ok _ _ _ _ _
    (sql_UPDATE_idle (fun balance => balance + t) d _ bd
       ltac:(by rewrite lookup_insert_ne) Fd)).
  apply sql_COMMIT_idle.
Qed.

(** A transfer whose debit is refused: nothing has been done. *)
Lemma transfer_debit_refused (T : gmap string Z) (s d : string) (t bs : Z) :
  T !! s = Some bs → Decimal.fits (bs - t) = false →
  transfer s d t (idle T) = Err numeric_value_out_of_range (idle T).
Proof.
  intros Hs Fs. unfold transfer.
  rewrite (bind_Ok _ _ _ _ _ (sql_BEGIN_idle T)).
  apply bind_Err.
  by apply (sql_UPDATE_idle_overflow (fun balance => balance - t) s T bs).
Qed.

(** A transfer whose credit is refused: the debit has been committed on
    its own and stays. *)
Lemma transfer_credit_refused
    (T : gmap string Z) (s d : string) (t bs bd : Z) :
  s ≠ d → T !! s = Some bs → T !! d = Some bd →
  Decimal.fits (bs - t) = true → Decimal.fits (bd + t) = false →
  transfer s d t (idle T) =
    Err numeric_value_out_of_range (idle (<[s := bs - t]> T)).
Proof.
  intros Hsd Hs Hd Fs Fd. unfold transfer.
  rewrite (bind_Ok _ _ _ _ _ (sql_BEGIN_idle T)).
  rewrite (bind_Ok _ _ _ _ _
    (sql_UPDATE_idle (fun balance => balance - t) s T bs Hs Fs)).
  apply bind_Err.
  apply (sql_UPDATE_idle_overflow (fun balance => balance + t) d _ bd);
    [by rewrite lookup_insert_ne | done].
Qed.

Lemma transfer_block_commits (T : gmap string Z) (s d : string) (t bs bd : Z) :
  s ≠ d → T !! s = Some bs → T !! d = Some bd →
  Decimal.fits t = true →
  Decimal.fits (bs - t) = true → Decimal.fits (bd + t) = true →
  transfer_block s d t (idle T) =
    Ok COMMITTED (idle (<[d := bd + t]> (<[s := bs - t]> T))).
Proof.
  intros Hsd Hs Hd Ft Fs Fd. unfold transfer_block.
  rewrite (bind_Ok _ _ _ _ _ (sql_BEGIN_idle T)).
  in_block_Ok ltac:(
    rewrite (bind_Ok _ _ _ _ _ (DECLARE_fits t _ Ft));
    rewrite <- bind_assoc;
    by rewrite (bind_Ok _ _ _ _ _
      (two_updates_active T s d t bs bd _ Hsd Hs Hd Fs Fd))).
Qed.

(** A transfer in a block one of whose values is refused: the block is
    undone as a whole, and the session is left outside any
    transaction. *)
Lemma transfer_block_fails (T : gmap string Z) (s d : string) (t bs bd : Z) :
  s ≠ d → T !! s = Some bs → T !! d = Some bd →
  Decimal.fits t && Decimal.fits (bs - t) && Decimal.fits (bd + t) = false →
  transfer_block s d t (idle T) = Err numeric_value_out_of_range (idle T).
Proof.
  intros Hsd Hs Hd F. unfold transfer_block.
  rewrite (bind_Ok _ _ _ _ _ (sql_BEGIN_idle T)).
  in_block_Err ltac:(
    destruct (Decimal.fits t) eqn:Ft;
      [|apply bind_Err; by apply DECLARE_overflow];
    rewrite (bind_Ok _ _ _ _ _ (DECLARE_fits t _ Ft));
    rewrite <- bind_assoc; apply bind_Err;
    by apply (two_updates_active_overflow T s d t bs bd)).
Qed.

(** C2: the transfer of cell-22 is not all or nothing as the notebook
    runs it.  From A = 1000.00 and B = 99999999.99 the debit of 100 is
    committed, the credit is refused (B would exceed [DECIMAL(10, 2)]),
    and the cell stops with A = 900.00 and B unchanged.  The same
    transfer in the block of cell-41 leaves both balances as they
    were. *)
Theorem cell_22_refused_credit_keeps_debit :
  let T := accounts (Decimal.lit 1000 00) (Decimal.lit 99999999 99) in
  cell_22 (idle T) =
    Err numeric_value_out_of_range
        (idle (accounts (Decimal.lit 900 00) (Decimal.lit 99999999 99)))
  ∧ cell_41 (idle T) = Err numeric_value_out_of_range (idle T).
Proof. cbv zeta. split; reflexivity. Qed.

(** ** The transfer with a consistency check *)

(** Inside the transaction of the block, up to the check: both updates
    are applied to the working copy, nothing is committed, and the
    balance read is the one of the source after the updates. *)
Lemma updates_then_read_run
    (T : gmap string Z) (s d : string) (t bs bd : Z) c :
  s ≠ d → T !! s = Some bs → T !! d = Some bd →
  Decimal.fits t = true →
  Decimal.fits (bs - t) = true → Decimal.fits (bd + t) = true →
  updates_then_read s d t (Session c (Active (Some T))) =
    Ok (Some (bs - t))
       (Session c (Active (Some (<[d := bd + t]> (<[s := bs - t]> T))))).
Proof.
  intros Hsd Hs Hd Ft Fs Fd. unfold updates_then_read.
  rewrite (bind_Ok _ _ _ _ _ (DECLARE_fits t _ Ft)).
  rewrite <- bind_assoc.
  rewrite (bind_Ok _ _ _ _ _
    (two_updates_active T s d t bs bd _ Hsd Hs Hd Fs Fd)).
  rewrite SELECT_INTO_active.
  rewrite lookup_insert_ne by done. by rewrite lookup_insert_eq.
Qed.

(** The whole operation, when no statement is refused. *)
Lemma transfer_with_check_run (T : gmap string Z) (s d : string) (t bs bd : Z) :
  s ≠ d → T !! s = Some bs → T !! d = Some bd →
  Decimal.fits t = true →
  Decimal.fits (bs - t) = true → Decimal.fits (bd + t) = true →
  transfer_with_check s d t (idle T) =
    if 0 <=? bs - t
    then Ok COMMITTED (idle (<[d := bd + t]> (<[s := bs - t]> T)))
    else Ok ROLLED_BACK (idle T).
Proof.
  intros Hsd Hs Hd Ft Fs Fd.
  rewrite transfer_with_check_split.
  rewrite (bind_Ok _ _ _ _ _ (sql_BEGIN_idle T)).
  pose proof (updates_then_read_run T s d t bs bd (Some T)
                Hsd Hs Hd Ft Fs Fd) as Hrun.
  destruct (0 <=? bs - t) eqn:Hle.
  - in_block_Ok ltac:(
      rewrite (bind_Ok _ _ _ _ _ Hrun);
      unfold commit_or_rollback, ge; simpl; rewrite Hle; reflexivity).
  - in_block_Ok ltac:(
      rewrite (bind_Ok _ _ _ _ _ Hrun);
      unfold commit_or_rollback, ge; simpl; rewrite Hle; reflexivity).
Qed.

(** C3: in the transfer with a check (the shape of cell-48, run on a
    table holding the two accounts, no value out of range), the block
    is sent from outside any transaction and runs in a transaction of
    its own; inside it the check reads the balance of the source after
    both updates, with nothing committed yet; the transaction is
    committed if and only if that balance is at least 0, and rolled
    back otherwise, leaving the table as it was. *)
Theorem commit_iff_check_succeeds
    (T : gmap string Z) (s d : string) (t bs bd : Z) :
  s ≠ d → T !! s = Some bs → T !! d = Some bd →
  Decimal.fits t = true →
  Decimal.fits (bs - t) = true → Decimal.fits (bd + t) = true →
  let applied := <[d := bd + t]> (<[s := bs - t]> T) in
  let r := transfer_with_check s d t (idle T) in
  (∀ σ, transfer_with_check s d t σ =
          (sql BEGIN ;;
           sql (DO (updates_then_read s d t ≫= commit_or_rollback))) σ)
  ∧ updates_then_read s d t (Session (Some T) (Active (Some T))) =
      Ok (Some (bs - t)) (Session (Some T) (Active (Some applied)))
  ∧ (value_of r = Some COMMITTED ↔ 0 ≤ bs - t)
  ∧ (0 ≤ bs - t → r = Ok COMMITTED (idle applied))
  ∧ (bs - t < 0 → r = Ok ROLLED_BACK (idle T)).
Proof.
  intros Hsd Hs Hd Ft Fs Fd applied r.
  split; [intros σ; apply transfer_with_check_split|].
  split; [by apply updates_then_read_run|].
  unfold r. rewrite (transfer_with_check_run T s d t bs bd) by done.
  destruct (Z.leb_spec 0 (bs - t)) as [Hle|Hlt]; simpl.
  - split; [done|]. split; [done|lia].
  - split; [split; [done|lia]|]. split; [lia|done].
Qed.

Lemma commit_iff_check_succeeds_witness :
  let T := accounts (Decimal.lit 900 00) (Decimal.lit 700 00) in
  let t := Decimal.of_int 10000 in
  Decimal.lit 900 00 - t < 0
  ∧ transfer_with_check "A" "B" t (idle T) = Ok ROLLED_BACK (idle T).
Proof.
  cbv zeta. split; [reflexivity|].
  refine (proj2 (proj2 (proj2 (proj2
            (commit_iff_check_succeeds
               (accounts (Decimal.lit 900 00) (Decimal.lit 700 00))
               "A" "B" (Decimal.of_int 10000)
               (Decimal.lit 900 00) (Decimal.lit 700 00)
               _ _ _ _ _ _)))) _);
    [discriminate | reflexivity ..].
Defined.

(** ** What the check does not see *)

(** C9: the decision of the transfer with a check depends on the balance
    of the source alone: two tables that agree on the source take the
    same decision whatever their other rows hold.  Nothing else guards a
    balance: a transfer that leaves the destination negative is
    committed, and an [UPDATE] outside any block stores a negative
    balance. *)
Theorem decision_reads_source_only
    (T T' : gmap string Z) (s d : string) (t bs bd bd' : Z) :
  s ≠ d →
  T !! s = Some bs → T' !! s = Some bs →
  T !! d = Some bd → T' !! d = Some bd' →
  Decimal.fits t = true → Decimal.fits (bs - t) = true →
  Decimal.fits (bd + t) = true → Decimal.fits (bd' + t) = true →
  value_of (transfer_with_check s d t (idle T)) =
    value_of (transfer_with_check s d t (idle T'))
  ∧ value_of (transfer_with_check s d t (idle T)) =
      Some (if 0 <=? bs - t then COMMITTED else ROLLED_BACK)
  ∧ (0 ≤ bs - t → bd + t < 0 →
     ∃ U, transfer_with_check s d t (idle T) = Ok COMMITTED (idle U)
          ∧ U !! d = Some (bd + t)
          ∧ ¬ consistent (Some U))
  ∧ (∀ f : Z → Z, Decimal.fits (f bd) = true → f bd < 0 →
     UPDATE_accounts f d (idle T) = Ok 1%nat (idle (<[d := f bd]> T))
     ∧ ¬ consistent (Some (<[d := f bd]> T))).
Proof.
  intros Hsd Hs Hs' Hd Hd' Ft Fs Fd Fd'.
  rewrite (transfer_with_check_run T s d t bs bd) by done.
  rewrite (transfer_with_check_run T' s d t bs bd') by done.
  split; [by destruct (0 <=? bs - t)|].
  split; [by destruct (0 <=? bs - t)|].
  split.
  - intros Hle Hneg. apply Z.leb_le in Hle. rewrite Hle.
    eexists. split; [done|].
    split; [apply lookup_insert_eq|].
    intros Hc. specialize (Hc d (bd + t) (lookup_insert_eq _ _ _)). lia.
  - intros f Ff Hneg. split; [by apply UPDATE_idle|].
    intros Hc. specialize (Hc d (f bd) (lookup_insert_eq _ _ _)). lia.
Qed.

Lemma decision_reads_source_only_witness :
  let T := accounts (Decimal.lit 900 00) (Decimal.lit 700 00) in
  let T' := accounts (Decimal.lit 900 00) (Decimal.lit (-5000) 00) in
  value_of (transfer_with_check "A" "B" (Decimal.of_int 100) (idle T)) =
    value_of (transfer_with_check "A" "B" (Decimal.of_int 100) (idle T')).
Proof.
  cbv zeta.
  apply (decision_reads_source_only
           (accounts (Decimal.lit 900 00) (Decimal.lit 700 00))
           (accounts (Decimal.lit 900 00) (Decimal.lit (-5000) 00))
           "A" "B" (Decimal.of_int 100)
           (Decimal.lit 900 00) (Decimal.lit 700 00)
           (Decimal.lit (-5000) 00));
    [discriminate | reflexivity ..].
Defined.

(** A transfer of a negative amount: A has 900.00 + 1000.00, the check
    passes, and B is committed at -300.00. *)
Example negative_destination_committed :
  transfer_with_check "A" "B" (Decimal.of_int (-1000))
    (idle (accounts (Decimal.lit 900 00) (Decimal.lit 700 00))) =
    Ok COMMITTED (idle (accounts (Decimal.lit 1900 00) (Decimal.lit (-300) 00))).
Proof. reflexivity. Qed.

(** ** The deposit *)

(** C6: from A = 900.00 and B = 600.00, the deposit of cell-35 leaves
    A = 1000.00 and B = 600.00; and on any table the deposit changes no
    row but the one of A. *)
Theorem deposit_changes_only_A :
  cell_35 (idle (accounts (Decimal.lit 900 00) (Decimal.lit 600 00))) =
    Ok 1%nat (idle (accounts (Decimal.lit 1000 00) (Decimal.lit 600 00)))
  ∧ ∀ T : gmap string Z,
      ∃ T' : gmap string Z,
        state_of (cell_35 (idle T)) = idle T'
        ∧ ∀ account_id, account_id ≠ "A" → T' !! account_id = T !! account_id.
Proof.
  split; [reflexivity|].
  intros T. unfold cell_35, sql, DO, idle. simpl.
  unfold mbind, M_bind.
  rewrite (DECLARE_fits (Decimal.of_int 100)) by reflexivity.
  unfold UPDATE_accounts, statement. simpl.
  destruct (T !! "A") as [balance|] eqn:HA; simpl.
  - destruct (Decimal.fits (balance + Decimal.of_int 100)); simpl.
    + eexists. split; [done|]. intros k Hk. by rewrite lookup_insert_ne.
    + by exists T.
  - by exists T.
Qed.

Lemma deposit_changes_only_A_witness :
  ∃ T' : gmap string Z,
    state_of
      (cell_35 (idle (accounts (Decimal.lit 900 00) (Decimal.lit 600 00)))) =
      idle T'
    ∧ T' !! "B" = Some (Decimal.lit 600 00).
Proof.
  destruct (proj2 deposit_changes_only_A
              (accounts (Decimal.lit 900 00) (Decimal.lit 600 00)))
    as [T' [Hrun Hframe]].
  exists T'. split; [exact Hrun|].
  rewrite (Hframe "B"); [reflexivity | discriminate].
Defined.

(** ** Inside the failed transfer *)

(** C10: cell-48 run from A = 900.00 and B = 700.00.  Its block runs in
    a transaction of its own; when the check reads the balance of A,
    the working copy of that transaction holds A = -9100.00 (and
    B = 10700.00) while the committed table still holds 900.00 and
    700.00: the state inside the transaction breaks the
    non-negative-balance invariant.  The decision then rolls the
    transaction back, and the invariant holds of the session before the
    cell and after it. *)
Theorem invariant_broken_inside_transaction :
  let T := accounts (Decimal.lit 900 00) (Decimal.lit 700 00) in
  let at_check :=
    Session (Some T)
      (Active (Some (accounts (Decimal.lit (-9100) 00)
                              (Decimal.lit 10700 00)))) in
  (∀ σ, cell_48 σ =
     (sql BEGIN ;;
      sql (DO (updates_then_read "A" "B" (Decimal.of_int 10000)
                 ≫= commit_or_rollback))) σ)
  ∧ sql BEGIN (idle T) = Ok tt (idle T)
  ∧ updates_then_read "A" "B" (Decimal.of_int 10000)
      (Session (Some T) (Active (Some T))) =
      Ok (Some (Decimal.lit (-9100) 00)) at_check
  ∧ Decimal.lit (-9100) 00 < 0
  ∧ consistent (visible (idle T))
  ∧ ¬ consistent (visible at_check)
  ∧ consistent (committed at_check)
  ∧ commit_or_rollback (Some (Decimal.lit (-9100) 00)) at_check =
      Ok ROLLED_BACK (idle T)
  ∧ cell_48 (idle T) = Ok ROLLED_BACK (idle T)
  ∧ consistent (visible (state_of (cell_48 (idle T)))).
Proof.
  cbv zeta.
  assert (consistent (Some (accounts (Decimal.lit 900 00) (Decimal.lit 700 00))))
    as Hc.
  { intros k b. unfold accounts.
    rewrite lookup_insert. case_decide; [intros [= <-]; done|].
    rewrite lookup_insert. case_decide; [intros [= <-]; done|].
    by rewrite lookup_empty. }
  split; [intros σ; apply transfer_with_check_split|].
  split; [reflexivity|].
  split; [reflexivity|].
  split; [reflexivity|].
  split; [exact Hc|].
  split; [intros H; by specialize (H "A" _ eq_refl)|].
  split; [exact Hc|].
  split; [reflexivity|].
  split; [reflexivity|exact Hc].
Qed.

(** ** The rows of the table *)

Lemma keeps_ids_ret {A} (a : A) : keeps_ids (mret a : M A).
Proof. intros s Hs. by split. Qed.

Lemma keeps_ids_bind {A B} (m : M A) (k : A → M B) :
  keeps_ids m → (∀ a, keeps_ids (k a)) → keeps_ids (m ≫= k).
Proof.
  intros Hm Hk s Hs. unfold mbind, M_bind.
  destruct (Hm s Hs) as [Hs' Hc]. destruct (m s) as [a s'|e s']; simpl in *.
  - destruct (Hk a s' Hs') as [Hs'' Hc']. split; [done|]. by rewrite Hc'.
  - by split.
Qed.

(** A statement whose body keeps the [account_id]s of the database. *)
Lemma keeps_ids_statement {A} (body : database → sql_error + A * database) :
  (∀ d a d', body d = inr (a, d') → ids d' = ids d) →
  keeps_ids (statement body).
Proof.
  intros Hbody [c [|w|]] Hs; unfold statement, same_ids in *; simpl in *.
  - destruct (body c) as [e|[a d']] eqn:Hb; simpl; [done|].
    split; [done|]. by apply (Hbody c a).
  - destruct (body w) as [e|[a w']] eqn:Hb; simpl; [done|].
    split; [|done]. rewrite <- Hs. by apply (Hbody w a).
  - done.
Qed.

Lemma keeps_ids_BEGIN : keeps_ids BEGIN.
Proof. by intros [c [|w|]] Hs. Qed.

Lemma keeps_ids_COMMIT : keeps_ids COMMIT.
Proof. by intros [c [|w|]] Hs. Qed.

Lemma keeps_ids_ROLLBACK : keeps_ids ROLLBACK.
Proof. by intros [c [|w|]] Hs. Qed.

Lemma keeps_ids_UPDATE (f : Z → Z) (k : string) :
  keeps_ids (UPDATE_accounts f k).
Proof.
  apply keeps_ids_statement. intros [T|] a d' Hb; [|done].
  destruct (T !! k) as [b|] eqn:Hk; [|by injection Hb as <- <-].
  destruct (Decimal.fits (f b)); [|done].
  injection Hb as <- <-. simpl. rewrite dom_insert_L.
  apply subseteq_union_1_L, singleton_subseteq_l.
  by apply (elem_of_dom_2 _ _ b).
Qed.

Lemma keeps_ids_SELECT : keeps_ids SELECT_FROM_accounts.
Proof.
  apply keeps_ids_statement. intros [T|] a d' Hb; [|done].
  by injection Hb as <- <-.
Qed.

Lemma keeps_ids_SELECT_INTO (k : string) : keeps_ids (SELECT_balance_INTO k).
Proof.
  apply keeps_ids_statement. intros [T|] a d' Hb; [|done].
  by injection Hb as <- <-.
Qed.

Lemma keeps_ids_DECLARE (v : Z) : keeps_ids (DECLARE_DECIMAL v).
Proof.
  intros [c [|w|]] Hs; unfold DECLARE_DECIMAL;
    by destruct (Decimal.fits v).
Qed.

Lemma keeps_ids_IF {A} (c : option bool) (m1 m2 : M A) :
  keeps_ids m1 → keeps_ids m2 → keeps_ids (IF c m1 m2).
Proof. by destruct c as [[]|]. Qed.

Lemma keeps_ids_DO {A} (block : M A) : keeps_ids block → keeps_ids (DO block).
Proof.
  intros Hb [c [|w|]] Hs; unfold DO; simpl; [| |done].
  - destruct (Hb (Session c (Active c)) eq_refl) as [Hs' Hc].
    destruct (block _) as [a s'|e s']; simpl in *; [|done].
    destruct (keeps_ids_COMMIT s' Hs') as [Hs'' Hc']. split; [done|].
    by rewrite Hc'.
  - unfold no_termination.
    destruct (tx (state_of (block (Session c (Active w))))); [done|..];
      by apply Hb.
Qed.

(** The commit that follows each statement of a cell. *)
Lemma keeps_ids_sql {A} (stmt : M A) : keeps_ids stmt → keeps_ids (sql stmt).
Proof.
  intros Hm s Hs. unfold sql. destruct (Hm s Hs) as [Hs' Hc].
  destruct (stmt s) as [a s'|e s']; simpl in *; [|done].
  destruct (keeps_ids_COMMIT s' Hs') as [Hs'' Hc']. split; [done|].
  by rewrite Hc'.
Qed.

Lemma keeps_ids_void {A} (cell : M A) : keeps_ids cell → keeps_ids (void cell).
Proof. intros H. apply keeps_ids_bind; [done|]. intros _. apply keeps_ids_ret. Qed.

Create HintDb keeps discriminated.
#[local] Hint Resolve keeps_ids_ret keeps_ids_BEGIN keeps_ids_COMMIT
  keeps_ids_ROLLBACK keeps_ids_UPDATE keeps_ids_SELECT keeps_ids_SELECT_INTO
  keeps_ids_DECLARE keeps_ids_IF keeps_ids_DO keeps_ids_sql keeps_ids_void
  : keeps.

Ltac keeps_ids_steps :=
  repeat first
    [ apply keeps_ids_bind; [|intros ?]
    | apply keeps_ids_sql
    | apply keeps_ids_DO
    | apply keeps_ids_IF
    | apply keeps_ids_void
    | solve [auto with keeps] ].

Lemma keeps_ids_transfer (s d : string) (t : Z) : keeps_ids (transfer s d t).
Proof. unfold transfer. keeps_ids_steps. Qed.

Lemma keeps_ids_transfer_block (s d : string) (t : Z) :
  keeps_ids (transfer_block s d t).
Proof. unfold transfer_block. keeps_ids_steps. Qed.

Lemma keeps_ids_deposit (k : string) (t : Z) : keeps_ids (deposit k t).
Proof. unfold deposit. keeps_ids_steps. Qed.

Lemma keeps_ids_transfer_with_check (s d : string) (t : Z) :
  keeps_ids (transfer_with_check s d t).
Proof. unfold transfer_with_check. keeps_ids_steps. Qed.

Lemma keeps_ids_cells : Forall keeps_ids cells_after_insert.
Proof.
  unfold cells_after_insert, cell_select.
  rewrite cell_22_transfer, cell_35_deposit, cell_41_transfer_block,
    cell_48_transfer_with_check.
  repeat constructor; apply keeps_ids_void;
    auto using keeps_ids_sql, keeps_ids_SELECT, keeps_ids_transfer,
      keeps_ids_transfer_block, keeps_ids_deposit,
      keeps_ids_transfer_with_check.
Qed.

Lemma trace_keeps_ids (cells : list (M unit)) (X : gset string) :
  Forall keeps_ids cells →
  ∀ s, same_ids s → ids (committed s) = X →
    Forall (fun s' => ids (committed s') = X ∧ ids (visible s') = X)
           (trace cells s).
Proof.
  induction 1 as [|cell cells Hcell _ IH]; intros s Hs HX; simpl.
  - constructor.
  - destruct (Hcell s Hs) as [Hs' Hc]. constructor.
    + split; [congruence|]. unfold same_ids in Hs'. congruence.
    + apply IH; [done|congruence].
Qed.

(** C8: after the sample data is inserted, every cell of the notebook
    leaves the accounts table with exactly the rows of A and B, in the
    committed state and in the state the session sees: the statements
    they run change the [balance] of an existing row and nothing else,
    so no [account_id] appears, disappears or changes. *)
Theorem account_rows_constant (s : session) :
  same_ids s → ids (committed s) = {["A"; "B"]} →
  Forall (fun s' => ids (committed s') = {["A"; "B"]}
                    ∧ ids (visible s') = {["A"; "B"]})
         (trace cells_after_insert s)
  ∧ length (trace cells_after_insert s) = length cells_after_insert.
Proof.
  intros Hs HX. split.
  - by apply trace_keeps_ids; [apply keeps_ids_cells| |].
  - reflexivity.
Qed.

Lemma account_rows_constant_witness :
  Forall (fun s' => ids (committed s') = {["A"; "B"]}
                    ∧ ids (visible s') = {["A"; "B"]})
         (trace cells_after_insert
            (state_of (cell_8 (Session None Idle)))).
Proof.
  apply (account_rows_constant (state_of (cell_8 (Session None Idle))));
    [reflexivity | apply accounts_ids].
Defined.


(** * Further properties of the statements and cells *)

Lemma cell_10_naive_transfer :
  cell_10 = naive_transfer "A" "B" (Decimal.of_int 100).
Proof. reflexivity. Qed.

(** ** More steps *)

Lemma alter_present (f : Z → Z) (k : string) (T : gmap string Z) b :
  T !! k = Some b → alter f k T = <[k := f b]> T.
Proof.
  intros Hk. apply map_eq. intros j.
  destruct (decide (k = j)) as [<-|Hne].
  - by rewrite lookup_alter_eq, lookup_insert_eq, Hk.
  - by rewrite lookup_alter_ne, lookup_insert_ne.
Qed.

Lemma alter_missing (f : Z → Z) (k : string) (T : gmap string Z) :
  T !! k = None → alter f k T = T.
Proof.
  intros Hk. apply map_eq. intros j.
  destruct (decide (k = j)) as [<-|Hne].
  - by rewrite lookup_alter_eq, Hk.
  - by rewrite lookup_alter_ne.
Qed.

(** An [UPDATE] inside an open block either alters the row of its key,
    if there is one, or is refused and fails the block. *)
Lemma UPDATE_active_cases (f : Z → Z) (k : string) (T : gmap string Z) c :
  (∃ n, UPDATE_accounts f k (Session c (Active (Some T))) =
          Ok n (Session c (Active (Some (alter f k T)))))
  ∨ UPDATE_accounts f k (Session c (Active (Some T))) =
      Err numeric_value_out_of_range (Session c Aborted).
Proof.
  destruct (T !! k) as [b|] eqn:Hk.
  - destruct (Decimal.fits (f b)) eqn:Hf.
    + left. exists 1%nat. rewrite (alter_present f k T b Hk).
      by apply UPDATE_active.
    + right. by apply (UPDATE_active_overflow f k T b).
  - left. exists 0%nat. rewrite (alter_missing f k T Hk).
    by apply UPDATE_active_missing.
Qed.

Lemma both_updates_present (T : gmap string Z) (s d : string) (t bs bd : Z) :
  s ≠ d → T !! s = Some bs → T !! d = Some bd →
  both_updates s d t T = <[d := bd + t]> (<[s := bs - t]> T).
Proof.
  intros Hsd Hs Hd. unfold both_updates.
  rewrite (alter_present (fun balance => balance - t) s T bs Hs).
  apply (alter_present (fun balance => balance + t) d _ bd).
  by rewrite lookup_insert_ne.
Qed.

(** ** The sum of the balances *)

Lemma total_insert (T : gmap string Z) (k : string) (b v : Z) :
  T !! k = Some b → total (<[k := v]> T) = total T - b + v.
Proof.
  intros Hk. unfold total.
  rewrite <- (insert_delete_eq T k v).
  rewrite map_fold_insert_L; [|intros; lia|apply lookup_delete_eq].
  rewrite (map_fold_delete_L _ _ k b T); [lia|intros; lia|done].
Qed.

Lemma total_transfer (T : gmap string Z) (s d : string) (t bs bd : Z) :
  s ≠ d → T !! s = Some bs → T !! d = Some bd →
  total (<[d := bd + t]> (<[s := bs - t]> T)) = total T.
Proof.
  intros Hsd Hs Hd.
  rewrite (total_insert _ d bd) by (by rewrite lookup_insert_ne).
  rewrite (total_insert _ s bs) by done. lia.
Qed.

(** ** The transfer without a transaction block *)

(** X1: the debit of a transfer is committed as soon as it has run,
    with [BEGIN] sent before it (cell-22) as without (cell-10): at the
    point where cell-10 simulates a crash the source is debited, the
    destination is not credited and the sum of the balances is down by
    the amount; and a credit that is refused leaves the debit in place,
    in cell-10 and in cell-22 alike. *)
Theorem naive_transfer_applies_debit_alone
    (T : gmap string Z) (s d : string) (t bs bd : Z) :
  s ≠ d → T !! s = Some bs → T !! d = Some bd →
  Decimal.fits (bs - t) = true →
  let debited := <[s := bs - t]> T in
  debit s t (idle T) = Ok 1%nat (idle debited)
  ∧ debited !! d = Some bd
  ∧ total debited = total T - t
  ∧ (sql BEGIN ;; debit s t) (idle T) = Ok 1%nat (idle debited)
  ∧ (Decimal.fits (bd + t) = false →
     naive_transfer s d t (idle T) =
       Err numeric_value_out_of_range (idle debited)
     ∧ transfer s d t (idle T) =
         Err numeric_value_out_of_range (idle debited))
  ∧ (Decimal.fits (bd + t) = true →
     naive_transfer s d t (idle T) =
       Ok 1%nat (idle (<[d := bd + t]> debited))).
Proof.
  intros Hsd Hs Hd Fs debited.
  assert (debit s t (idle T) = Ok 1%nat (idle debited)) as Hdebit.
  { by apply (sql_UPDATE_idle (fun balance => balance - t) s T bs). }
  assert (debited !! d = Some bd) as Hd'.
  { unfold debited. by rewrite lookup_insert_ne. }
  split; [done|]. split; [done|].
  split. { unfold debited. rewrite (total_insert T s bs) by done. lia. }
  split. { by rewrite (bind_Ok _ _ _ _ _ (sql_BEGIN_idle T)). }
  unfold naive_transfer. fold (debit s t).
  split; intros Fd; rewrite (bind_Ok _ _ _ _ _ Hdebit).
  - split; [|by apply (transfer_credit_refused T s d t bs bd)].
    by apply (sql_UPDATE_idle_overflow (fun balance => balance + t) d _ bd).
  - by apply (sql_UPDATE_idle (fun balance => balance + t) d _ bd).
Qed.

Lemma naive_transfer_applies_debit_alone_witness :
  debit "A" (Decimal.of_int 100)
    (idle (accounts (Decimal.lit 1000 00) (Decimal.lit 500 00))) =
    Ok 1%nat
      (idle (<["A" := Decimal.lit 1000 00 - Decimal.of_int 100]>
               (accounts (Decimal.lit 1000 00) (Decimal.lit 500 00)))).
Proof.
  apply (naive_transfer_applies_debit_alone
           (accounts (Decimal.lit 1000 00) (Decimal.lit 500 00))
           "A" "B" (Decimal.of_int 100)
           (Decimal.lit 1000 00) (Decimal.lit 500 00));
    [discriminate | reflexivity ..].
Defined.

(** ** Accounts that do not exist *)

(** X2: a transfer to an account that is not in the table is committed
    all the same: the [UPDATE] of the destination changes no row and
    raises nothing, so the source is debited and the amount leaves the
    table.  The consistency check of cell-48 does not catch it. *)
Theorem transfer_to_missing_account_loses_amount
    (T : gmap string Z) (s d : string) (t bs : Z) :
  T !! s = Some bs → T !! d = None →
  Decimal.fits t = true → Decimal.fits (bs - t) = true →
  let debited := <[s := bs - t]> T in
  transfer s d t (idle T) = Ok COMMITTED (idle debited)
  ∧ transfer_block s d t (idle T) = Ok COMMITTED (idle debited)
  ∧ (0 ≤ bs - t →
     transfer_with_check s d t (idle T) = Ok COMMITTED (idle debited))
  ∧ debited !! d = None
  ∧ total debited = total T - t.
Proof.
  intros Hs Hd Ft Fs debited.
  assert (s ≠ d) as Hsd by congruence.
  assert (debited !! d = None) as Hd'.
  { unfold debited. by rewrite lookup_insert_ne. }
  assert (∀ c,
    (UPDATE_accounts (fun balance => balance - t) s ;;
     UPDATE_accounts (fun balance => balance + t) d)
      (Session c (Active (Some T))) =
      Ok 0%nat (Session c (Active (Some debited)))) as Hboth.
  { intros c.
    rewrite (bind_Ok _ _ _ _ _
      (UPDATE_active (fun balance => balance - t) s T bs c Hs Fs)).
    by apply UPDATE_active_missing. }
  split.
  { unfold transfer. rewrite (bind_Ok _ _ _ _ _ (sql_BEGIN_idle T)).
    rewrite (bind_Ok _ _ _ _ _
      (sql_UPDATE_idle (fun balance => balance - t) s T bs Hs Fs)).
    rewrite (bind_Ok _ _ _ _ _
      (sql_UPDATE_idle_missing (fun balance => balance + t) d _ Hd')).
    apply sql_COMMIT_idle. }
  split.
  { unfold transfer_block.
    rewrite (bind_Ok _ _ _ _ _ (sql_BEGIN_idle T)).
    in_block_Ok ltac:(
      rewrite (bind_Ok _ _ _ _ _ (DECLARE_fits t _ Ft));
      rewrite <- bind_assoc; by rewrite (bind_Ok _ _ _ _ _ (Hboth _))). }
  split.
  { intros Hle. apply Z.leb_le in Hle. unfold transfer_with_check.
    rewrite (bind_Ok _ _ _ _ _ (sql_BEGIN_idle T)).
    in_block_Ok ltac:(
      rewrite (bind_Ok _ _ _ _ _ (DECLARE_fits t _ Ft));
      rewrite <- bind_assoc; rewrite (bind_Ok _ _ _ _ _ (Hboth _));
      rewrite (bind_Ok _ _ _ _ _ (SELECT_INTO_active s debited _));
      unfold debited; rewrite lookup_insert_eq; unfold ge; simpl;
      rewrite Hle; reflexivity). }
  split; [done|].
  unfold debited. rewrite (total_insert T s bs) by done. lia.
Qed.

Lemma transfer_to_missing_account_loses_amount_witness :
  transfer "A" "C" (Decimal.of_int 100)
    (idle (accounts (Decimal.lit 1000 00) (Decimal.lit 500 00))) =
    Ok COMMITTED
      (idle (<["A" := Decimal.lit 1000 00 - Decimal.of_int 100]>
               (accounts (Decimal.lit 1000 00) (Decimal.lit 500 00)))).
Proof.
  refine (proj1 (transfer_to_missing_account_loses_amount
                   (accounts (Decimal.lit 1000 00) (Decimal.lit 500 00))
                   "A" "C" (Decimal.of_int 100) (Decimal.lit 1000 00)
                   _ _ _ _));
    reflexivity.
Defined.

(** X3: when the source account is not in the table, the balance read
    by the check of cell-48 is NULL, the condition is not true, and the
    transfer is rolled back: the credit made to the destination inside
    the transaction of the block is discarded. *)
Theorem transfer_with_check_missing_source_rolls_back
    (T : gmap string Z) (s d : string) (t bd : Z) :
  T !! s = None → T !! d = Some bd →
  Decimal.fits t = true → Decimal.fits (bd + t) = true →
  updates_then_read s d t (Session (Some T) (Active (Some T))) =
    Ok None (Session (Some T) (Active (Some (<[d := bd + t]> T))))
  ∧ transfer_with_check s d t (idle T) = Ok ROLLED_BACK (idle T).
Proof.
  intros Hs Hd Ft Fd.
  assert (s ≠ d) as Hsd by congruence.
  assert (updates_then_read s d t (Session (Some T) (Active (Some T))) =
    Ok None (Session (Some T) (Active (Some (<[d := bd + t]> T)))))
    as Hrun.
  { unfold updates_then_read.
    rewrite (bind_Ok _ _ _ _ _ (DECLARE_fits t _ Ft)).
    rewrite (bind_Ok _ _ _ _ _ (UPDATE_active_missing _ s T _ Hs)).
    rewrite (bind_Ok _ _ _ _ _
      (UPDATE_active (fun balance => balance + t) d T bd _ Hd Fd)).
    rewrite SELECT_INTO_active. by rewrite lookup_insert_ne, Hs. }
  split; [done|].
  rewrite transfer_with_check_split.
  rewrite (bind_Ok _ _ _ _ _ (sql_BEGIN_idle T)).
  in_block_Ok ltac:(by rewrite (bind_Ok _ _ _ _ _ Hrun)).
Qed.

Lemma transfer_with_check_missing_source_rolls_back_witness :
  transfer_with_check "C" "B" (Decimal.of_int 100)
    (idle (accounts (Decimal.lit 900 00) (Decimal.lit 700 00))) =
    Ok ROLLED_BACK (idle (accounts (Decimal.lit 900 00) (Decimal.lit 700 00))).
Proof.
  refine (proj2 (transfer_with_check_missing_source_rolls_back
                   (accounts (Decimal.lit 900 00) (Decimal.lit 700 00))
                   "C" "B" (Decimal.of_int 100) (Decimal.lit 700 00)
                   _ _ _ _));
    reflexivity.
Defined.

(** ** The transfer with a check, on any table *)

(** The block of cell-48 up to the check, on any table: a refused value
    fails the block; otherwise both updates are applied to the working
    copy and the balance read is the one of the source after them. *)
Lemma updates_then_read_outcomes (T : gmap string Z) (s d : string) (t : Z) c :
  updates_then_read s d t (Session c (Active (Some T))) =
    Err numeric_value_out_of_range (Session c Aborted)
  ∨ updates_then_read s d t (Session c (Active (Some T))) =
      Ok (both_updates s d t T !! s)
         (Session c (Active (Some (both_updates s d t T)))).
Proof.
  unfold updates_then_read, both_updates.
  destruct (Decimal.fits t) eqn:Ft;
    [|left; apply bind_Err; by apply DECLARE_overflow].
  rewrite (bind_Ok _ _ _ _ _ (DECLARE_fits t _ Ft)).
  destruct (UPDATE_active_cases (fun balance => balance - t) s T c)
    as [[n Hn]|He]; [|left; by apply bind_Err].
  rewrite (bind_Ok _ _ _ _ _ Hn).
  destruct (UPDATE_active_cases (fun balance => balance + t) d
              (alter (fun balance => balance - t) s T) c)
    as [[n' Hn']|He]; [|left; by apply bind_Err].
  rewrite (bind_Ok _ _ _ _ _ Hn'). right. apply SELECT_INTO_active.
Qed.

(** The three ways the transfer with a check can end. *)
Lemma transfer_with_check_outcomes (T : gmap string Z) (s d : string) (t : Z) :
  transfer_with_check s d t (idle T) =
    Err numeric_value_out_of_range (idle T)
  ∨ transfer_with_check s d t (idle T) = Ok ROLLED_BACK (idle T)
  ∨ (transfer_with_check s d t (idle T) =
       Ok COMMITTED (idle (both_updates s d t T))
     ∧ ∃ v, both_updates s d t T !! s = Some v ∧ 0 ≤ v).
Proof.
  rewrite transfer_with_check_split.
  rewrite (bind_Ok _ _ _ _ _ (sql_BEGIN_idle T)).
  destruct (updates_then_read_outcomes T s d t (Some T)) as [He|Hok].
  - left. in_block_Err ltac:(by apply bind_Err).
  - right.
    destruct (both_updates s d t T !! s) as [v|] eqn:Hv.
    + destruct (Z.leb_spec 0 v) as [Hle|Hlt].
      * right. split; [|by exists v].
        apply Z.leb_le in Hle.
        in_block_Ok ltac:(
          rewrite (bind_Ok _ _ _ _ _ Hok);
          unfold commit_or_rollback, ge; simpl; rewrite Hle; reflexivity).
      * left. apply Z.leb_gt in Hlt.
        in_block_Ok ltac:(
          rewrite (bind_Ok _ _ _ _ _ Hok);
          unfold commit_or_rollback, ge; simpl; rewrite Hlt; reflexivity).
    + left. in_block_Ok ltac:(by rewrite (bind_Ok _ _ _ _ _ Hok)).
Qed.

(** X4: on every table, for every pair of accounts (present or not,
    distinct or not) and every amount, the transfer with a check is all
    or nothing: the committed table afterwards is the one before, or the
    transfer was committed with both updates applied and a source
    balance of at least 0. *)
Theorem transfer_with_check_all_or_nothing
    (T : gmap string Z) (s d : string) (t : Z) :
  committed (state_of (transfer_with_check s d t (idle T))) = Some T
  ∨ (transfer_with_check s d t (idle T) =
       Ok COMMITTED (idle (both_updates s d t T))
     ∧ ∃ v, both_updates s d t T !! s = Some v ∧ 0 ≤ v).
Proof.
  destruct (transfer_with_check_outcomes T s d t) as [H|[H|H]];
    [left; by rewrite H | left; by rewrite H | by right].
Qed.

(** X5: the transfer with a check keeps the invariant the lecture
    teaches when the amount is not negative: from a table without
    negative balances it commits no negative balance, whatever the
    accounts and whether the transfer succeeds, is rolled back or
    fails. *)
Theorem transfer_with_check_keeps_consistency
    (T : gmap string Z) (s d : string) (t : Z) :
  0 ≤ t → consistent (Some T) →
  consistent (committed (state_of (transfer_with_check s d t (idle T)))).
Proof.
  intros Ht HT.
  destruct (transfer_with_check_all_or_nothing T s d t)
    as [H|[H [v [Hv Hle]]]]; [by rewrite H|].
  rewrite H. simpl. intros k b Hk.
  destruct (decide (k = s)) as [->|Hks]; [congruence|].
  unfold both_updates in Hk.
  destruct (decide (d = k)) as [->|Hkd].
  - rewrite lookup_alter_eq, lookup_alter_ne in Hk by done.
    destruct (T !! k) as [b0|] eqn:H0; [|done].
    injection Hk as <-. specialize (HT k b0 H0). lia.
  - rewrite !lookup_alter_ne in Hk by done. by apply (HT k).
Qed.

Lemma transfer_with_check_keeps_consistency_witness :
  consistent
    (committed
       (state_of
          (transfer_with_check "A" "B" (Decimal.of_int 10000)
             (idle (accounts (Decimal.lit 900 00) (Decimal.lit 700 00)))))).
Proof.
  apply (transfer_with_check_keeps_consistency
           (accounts (Decimal.lit 900 00) (Decimal.lit 700 00))
           "A" "B" (Decimal.of_int 10000)).
  - discriminate.
  - intros k b. unfold accounts.
    rewrite lookup_insert. case_decide; [intros [= <-]; discriminate|].
    rewrite lookup_insert. case_decide; [intros [= <-]; discriminate|].
    by rewrite lookup_empty.
Defined.

(** ** Before the commit *)

Lemma in_block_ret {A} (a : A) : in_block (mret a : M A).
Proof. intros c w. simpl. eauto. Qed.

Lemma in_block_bind {A B} (m : M A) (k : A → M B) :
  in_block m → (∀ a, in_block (k a)) → in_block (m ≫= k).
Proof.
  intros Hm Hk c w. unfold mbind, M_bind. specialize (Hm c w).
  destruct (m (Session c (Active w))) as [a [c' x']|e s']; [|done].
  simpl in Hm. destruct Hm as [-> [w' ->]]. apply Hk.
Qed.

Lemma in_block_statement {A} (body : database → sql_error + A * database) :
  in_block (statement body).
Proof.
  intros c w. unfold statement. simpl.
  destruct (body w) as [e|[a w']]; simpl; eauto.
Qed.

Lemma in_block_DECLARE (v : Z) : in_block (DECLARE_DECIMAL v).
Proof.
  intros c w. unfold DECLARE_DECIMAL.
  destruct (Decimal.fits v); simpl; eauto.
Qed.

Lemma in_block_updates_then_read (s d : string) (t : Z) :
  in_block (updates_then_read s d t).
Proof.
  unfold updates_then_read.
  apply in_block_bind; [apply in_block_DECLARE|intros a].
  repeat (apply in_block_bind; [apply in_block_statement|intros ?]).
  apply in_block_statement.
Qed.

(** X6: inside the transaction a block runs in, the two updates and
    the read of cell-48 commit nothing and do not end the transaction,
    whatever the database, the accounts and the amount; a block that
    ends in [ROLLBACK] after them leaves the session exactly as it was;
    and a block that ends after them without [COMMIT] or [ROLLBACK] has
    its updates committed when it ends. *)
Theorem updates_not_committed_before_commit
    (s d : string) (t : Z) (c : database) :
  in_block (updates_then_read s d t)
  ∧ state_of (sql (DO (updates_then_read s d t ;; ROLLBACK)) (Session c Idle))
      = Session c Idle
  ∧ (∀ (T : gmap string Z) bs bd,
       s ≠ d → T !! s = Some bs → T !! d = Some bd →
       Decimal.fits t = true →
       Decimal.fits (bs - t) = true → Decimal.fits (bd + t) = true →
       (sql BEGIN ;; sql (DO (updates_then_read s d t))) (idle T) =
         Ok (Some (bs - t)) (idle (<[d := bd + t]> (<[s := bs - t]> T)))).
Proof.
  split; [apply in_block_updates_then_read|]. split.
  - unfold sql, DO. simpl. unfold mbind, M_bind.
    pose proof (in_block_updates_then_read s d t c c) as H.
    destruct (updates_then_read s d t (Session c (Active c)))
      as [v [c' x']|e s']; simpl in *.
    + by destruct H as [-> _].
    + by subst s'.
  - intros T bs bd Hsd Hs Hd Ft Fs Fd.
    rewrite (bind_Ok _ _ _ _ _ (sql_BEGIN_idle T)).
    in_block_Ok ltac:(by apply updates_then_read_run).
Qed.

Lemma updates_not_committed_before_commit_witness :
  (sql BEGIN ;;
   sql (DO (updates_then_read "A" "B" (Decimal.of_int 10000))))
    (idle (accounts (Decimal.lit 900 00) (Decimal.lit 700 00))) =
    Ok (Some (Decimal.lit 900 00 - Decimal.of_int 10000))
       (idle (<["B" := Decimal.lit 700 00 + Decimal.of_int 10000]>
                (<["A" := Decimal.lit 900 00 - Decimal.of_int 10000]>
                   (accounts (Decimal.lit 900 00) (Decimal.lit 700 00))))).
Proof.
  refine (proj2 (proj2 (updates_not_committed_before_commit
                          "A" "B" (Decimal.of_int 10000) None))
            (accounts (Decimal.lit 900 00) (Decimal.lit 700 00))
            (Decimal.lit 900 00) (Decimal.lit 700 00) _ _ _ _ _ _);
    [discriminate | reflexivity ..].
Defined.

(** ** With and without the check *)

(** X7: on a table holding both accounts (no value out of range), the
    transfer with a check of cell-48 does exactly what the transfer of
    cell-41 does when the source can pay; when it cannot, cell-41's
    shape commits the overdraft, a negative source balance, and the
    check alone turns that into a rollback. *)
Theorem check_differs_only_on_overdraft
    (T : gmap string Z) (s d : string) (t bs bd : Z) :
  s ≠ d → T !! s = Some bs → T !! d = Some bd →
  Decimal.fits t = true →
  Decimal.fits (bs - t) = true → Decimal.fits (bd + t) = true →
  let applied := <[d := bd + t]> (<[s := bs - t]> T) in
  transfer_block s d t (idle T) = Ok COMMITTED (idle applied)
  ∧ (0 ≤ bs - t →
     transfer_with_check s d t (idle T) = transfer_block s d t (idle T))
  ∧ (bs - t < 0 →
     ¬ consistent (committed (state_of (transfer_block s d t (idle T))))
     ∧ transfer_with_check s d t (idle T) = Ok ROLLED_BACK (idle T)).
Proof.
  intros Hsd Hs Hd Ft Fs Fd applied.
  rewrite (transfer_block_commits T s d t bs bd) by done.
  rewrite (transfer_with_check_run T s d t bs bd) by done.
  split; [done|].
  destruct (Z.leb_spec 0 (bs - t)) as [Hle|Hlt].
  - split; [done|lia].
  - split; [lia|]. intros _. split; [|done].
    simpl. intros Hc. specialize (Hc s (bs - t)).
    rewrite lookup_insert_ne, lookup_insert_eq in Hc by done.
    specialize (Hc eq_refl). lia.
Qed.

Lemma check_differs_only_on_overdraft_witness :
  transfer_block "A" "B" (Decimal.of_int 10000)
    (idle (accounts (Decimal.lit 900 00) (Decimal.lit 700 00))) =
    Ok COMMITTED
      (idle (<["B" := Decimal.lit 700 00 + Decimal.of_int 10000]>
               (<["A" := Decimal.lit 900 00 - Decimal.of_int 10000]>
                  (accounts (Decimal.lit 900 00) (Decimal.lit 700 00))))).
Proof.
  refine (proj1 (check_differs_only_on_overdraft
                   (accounts (Decimal.lit 900 00) (Decimal.lit 700 00))
                   "A" "B" (Decimal.of_int 10000)
                   (Decimal.lit 900 00) (Decimal.lit 700 00)
                   _ _ _ _ _ _));
    [discriminate | reflexivity ..].
Defined.

(** ** Conservation of money *)

(** X8: between two distinct accounts of the table, the transfers that
    run in a block (cell-41, cell-48) leave the sum of all balances as
    it was, whether they commit, roll back or fail.  The transfer of
    cell-22 keeps the sum when it is committed; when its credit is
    refused the debit stays and the sum is down by the amount. *)
Theorem transfers_conserve_total
    (T : gmap string Z) (s d : string) (t bs bd : Z) :
  s ≠ d → T !! s = Some bs → T !! d = Some bd →
  Forall (fun op : string → string → Z → M tx_end =>
            ∃ T', state_of (op s d t (idle T)) = idle T'
                  ∧ total T' = total T)
         [transfer_block; transfer_with_check]
  ∧ (∀ T', transfer s d t (idle T) = Ok COMMITTED (idle T') →
           total T' = total T)
  ∧ (Decimal.fits (bs - t) = true → Decimal.fits (bd + t) = false →
     ∃ T', state_of (transfer s d t (idle T)) = idle T'
           ∧ total T' = total T - t).
Proof.
  intros Hsd Hs Hd.
  pose proof (total_transfer T s d t bs bd Hsd Hs Hd) as Htot.
  split; [repeat constructor|split].
  - destruct (Decimal.fits t && Decimal.fits (bs - t) && Decimal.fits (bd + t))
      eqn:F.
    + apply andb_true_iff in F as [F Fd]. apply andb_true_iff in F as [Ft Fs].
      rewrite (transfer_block_commits T s d t bs bd) by done. eauto.
    + rewrite (transfer_block_fails T s d t bs bd) by done. eauto.
  - destruct (transfer_with_check_outcomes T s d t) as [H|[H|[H _]]];
      rewrite H; simpl; eauto.
    rewrite (both_updates_present T s d t bs bd) by done. eauto.
  - intros T' Hrun.
    destruct (Decimal.fits (bs - t)) eqn:Fs;
      [|by rewrite (transfer_debit_refused T s d t bs) in Hrun].
    destruct (Decimal.fits (bd + t)) eqn:Fd;
      [|by rewrite (transfer_credit_refused T s d t bs bd) in Hrun].
    rewrite (transfer_commits T s d t bs bd) in Hrun by done.
    by injection Hrun as <-.
  - intros Fs Fd.
    rewrite (transfer_credit_refused T s d t bs bd) by done.
    eexists. split; [done|].
    rewrite (total_insert T s bs) by done. lia.
Qed.

Lemma transfers_conserve_total_witness :
  ∃ T', state_of
          (transfer "A" "B" (Decimal.of_int 100)
             (idle (accounts (Decimal.lit 1000 00)
                             (Decimal.lit 99999999 99)))) = idle T'
        ∧ total T' =
            total (accounts (Decimal.lit 1000 00) (Decimal.lit 99999999 99))
            - Decimal.of_int 100.
Proof.
  refine (proj2 (proj2 (transfers_conserve_total
                          (accounts (Decimal.lit 1000 00)
                                    (Decimal.lit 99999999 99))
                          "A" "B" (Decimal.of_int 100)
                          (Decimal.lit 1000 00) (Decimal.lit 99999999 99)
                          _ _ _)) _ _);
    [discriminate | reflexivity ..].
Defined.

(** X9: a committed transfer is undone by the transfer of the same
    amount in the other direction: the two in sequence give back the
    table they started from. *)
Theorem transfer_round_trip
    (T : gmap string Z) (s d : string) (t bs bd : Z) :
  s ≠ d → T !! s = Some bs → T !! d = Some bd →
  Decimal.fits bs = true → Decimal.fits bd = true →
  Decimal.fits (bs - t) = true → Decimal.fits (bd + t) = true →
  (transfer s d t ;; transfer d s t) (idle T) = Ok COMMITTED (idle T).
Proof.
  intros Hsd Hs Hd Fbs Fbd Fs Fd.
  rewrite (bind_Ok _ _ _ _ _
    (transfer_commits T s d t bs bd Hsd Hs Hd Fs Fd)).
  rewrite (transfer_commits _ d s t (bd + t) (bs - t)).
  - f_equal. f_equal. apply map_eq. intros k.
    destruct (decide (s = k)) as [<-|Hks].
    + rewrite lookup_insert_eq, Hs. f_equal. lia.
    + rewrite lookup_insert_ne by done.
      destruct (decide (d = k)) as [<-|Hkd].
      * rewrite lookup_insert_eq, Hd. f_equal. lia.
      * by rewrite !lookup_insert_ne.
  - done.
  - apply lookup_insert_eq.
  - rewrite lookup_insert_ne by done. apply lookup_insert_eq.
  - by replace (bd + t - t) with bd by lia.
  - by replace (bs - t + t) with bs by lia.
Qed.

Lemma transfer_round_trip_witness :
  (transfer "A" "B" (Decimal.of_int 100) ;;
   transfer "B" "A" (Decimal.of_int 100))
    (idle (accounts (Decimal.lit 1000 00) (Decimal.lit 500 00))) =
    Ok COMMITTED (idle (accounts (Decimal.lit 1000 00) (Decimal.lit 500 00))).
Proof.
  apply (transfer_round_trip
           (accounts (Decimal.lit 1000 00) (Decimal.lit 500 00))
           "A" "B" (Decimal.of_int 100)
           (Decimal.lit 1000 00) (Decimal.lit 500 00));
    [discriminate | reflexivity ..].
Defined.

(** ** The deposit on any table *)

(** X10: the deposit of cell-35, on any table and for any account and
    amount: it adds the amount to the account and to the sum of all
    balances; for an account that is not in the table it changes
    nothing and raises nothing; when the amount or the new balance is
    out of range it is refused, and the session is left outside any
    transaction with the table unchanged. *)
Theorem deposit_outcomes (T : gmap string Z) (k : string) (t : Z) :
  (Decimal.fits t = false →
   deposit k t (idle T) = Err numeric_value_out_of_range (idle T))
  ∧ (Decimal.fits t = true → T !! k = None →
     deposit k t (idle T) = Ok 0%nat (idle T))
  ∧ (∀ b, Decimal.fits t = true → T !! k = Some b →
     Decimal.fits (b + t) = true →
     deposit k t (idle T) = Ok 1%nat (idle (<[k := b + t]> T))
     ∧ total (<[k := b + t]> T) = total T + t)
  ∧ (∀ b, Decimal.fits t = true → T !! k = Some b →
     Decimal.fits (b + t) = false →
     deposit k t (idle T) = Err numeric_value_out_of_range (idle T)).
Proof.
  unfold deposit, sql, DO, idle. simpl. unfold mbind, M_bind.
  split; [|split; [|split]].
  - intros Ft. unfold DECLARE_DECIMAL. by rewrite Ft.
  - intros Ft Hk. rewrite (DECLARE_fits t _ Ft).
    by rewrite (UPDATE_active_missing _ k T _ Hk).
  - intros b Ft Hk Fb. rewrite (DECLARE_fits t _ Ft).
    rewrite (UPDATE_active (fun balance => balance + t) k T b _ Hk Fb).
    split; [done|]. rewrite (total_insert T k b) by done. lia.
  - intros b Ft Hk Fb. rewrite (DECLARE_fits t _ Ft).
    by rewrite (UPDATE_active_overflow (fun balance => balance + t) k T b _ Hk Fb).
Qed.

Lemma deposit_outcomes_witness :
  deposit "C" (Decimal.of_int 100)
    (idle (accounts (Decimal.lit 900 00) (Decimal.lit 600 00))) =
    Ok 0%nat (idle (accounts (Decimal.lit 900 00) (Decimal.lit 600 00))).
Proof.
  refine (proj1 (proj2 (deposit_outcomes
                          (accounts (Decimal.lit 900 00) (Decimal.lit 600 00))
                          "C" (Decimal.of_int 100))) _ _);
    reflexivity.
Defined.

(** ** The bulk insert *)

(** *** Keys and [VARCHAR(10)] *)






(** Trailing spaces beyond the tenth character are dropped ... *)
Example VARCHAR_10_trailing_space : VARCHAR_10 "ABCDEFGHIJ " = inr "ABCDEFGHIJ".
Proof. reflexivity. Qed.

(** ... any other character there is refused ... *)
Example VARCHAR_10_too_long :
  VARCHAR_10 "ABCDEFGHIJK" = inl string_data_right_truncation.
Proof. reflexivity. Qed.

(** ... and the ten are characters, not bytes. *)
Example VARCHAR_10_characters :
  String.length "éééééééééé" = 20%nat
  ∧ VARCHAR_10 "éééééééééé" = inr "éééééééééé".
Proof. split; reflexivity. Qed.



(** *** Rows and the primary key *)







(** An error of a column type in a later row is reported before the
    duplicate key of an earlier one. *)
Example insert_column_error_first :
  INSERT_INTO_accounts
    [("A", Decimal.lit 1 00); ("ABCDEFGHIJK", Decimal.lit 1 00)]
    (idle (accounts (Decimal.lit 900 00) (Decimal.lit 700 00))) =
    Err string_data_right_truncation
      (idle (accounts (Decimal.lit 900 00) (Decimal.lit 700 00))).
Proof. reflexivity. Qed.

(** ** The range of an amount *)

Lemma fits_of_int (n : Z) :
  Decimal.fits (Decimal.of_int n) = true ↔ -100000000 < n < 100000000.
Proof.
  unfold Decimal.fits, Decimal.of_int, Decimal.limit, Decimal.precision,
    Decimal.scale.
  change (10 ^ 10) with 10000000000. change (10 ^ 2) with 100.
  rewrite andb_true_iff, !Z.ltb_lt. lia.
Qed.

(** X13: the blocks that hold the amount in a [DECIMAL(10, 2)] variable
    (cells 35, 41 and 48) accept a whole amount [n] exactly when
    -100000000 < n < 100000000.  Outside that range the declaration is
    refused before any row is touched: the cell stops with the table
    unchanged and the session outside any transaction, whatever the
    table and the accounts. *)
Theorem block_amount_range (T : gmap string Z) (s d : string) (n : Z) :
  (-100000000 < n < 100000000 →
   ∀ σ, DECLARE_DECIMAL (Decimal.of_int n) σ = Ok (Decimal.of_int n) σ)
  ∧ (¬ (-100000000 < n < 100000000) →
     transfer_block s d (Decimal.of_int n) (idle T) =
       Err numeric_value_out_of_range (idle T)
     ∧ transfer_with_check s d (Decimal.of_int n) (idle T) =
         Err numeric_value_out_of_range (idle T)
     ∧ deposit s (Decimal.of_int n) (idle T) =
         Err numeric_value_out_of_range (idle T)).
Proof.
  split.
  - intros Hn σ. apply DECLARE_fits. by apply fits_of_int.
  - intros Hn.
    assert (Decimal.fits (Decimal.of_int n) = false) as Ft.
    { destruct (Decimal.fits (Decimal.of_int n)) eqn:F; [|done].
      by apply fits_of_int in F. }
    split; [|split].
    + unfold transfer_block.
      rewrite (bind_Ok _ _ _ _ _ (sql_BEGIN_idle T)).
      in_block_Err ltac:(apply bind_Err; by apply DECLARE_overflow).
    + unfold transfer_with_check.
      rewrite (bind_Ok _ _ _ _ _ (sql_BEGIN_idle T)).
      in_block_Err ltac:(apply bind_Err; by apply DECLARE_overflow).
    + by apply deposit_outcomes.
Qed.

Lemma block_amount_range_witness :
  transfer_block "A" "B" (Decimal.of_int 100000000)
    (idle (accounts (Decimal.lit 900 00) (Decimal.lit 700 00))) =
    Err numeric_value_out_of_range
      (idle (accounts (Decimal.lit 900 00) (Decimal.lit 700 00))).
Proof.
  refine (proj1 (proj2 (block_amount_range
                          (accounts (Decimal.lit 900 00) (Decimal.lit 700 00))
                          "A" "B" 100000000) _)).
  lia.
Defined.

(** ** Without the commits of [%%sql] *)

(** The statements of cell-41 sent to a session that does not commit
    after each of them: [BEGIN] leaves its block open, the [COMMIT] of
    the block is refused inside it, and nothing is committed. *)
Example block_commit_refused_in_open_transaction :
  let T := accounts (Decimal.lit 1000 00) (Decimal.lit 600 00) in
  (BEGIN ;;
   DO (transaction_amount ← DECLARE_DECIMAL (Decimal.of_int 100);
       UPDATE_accounts (fun balance => balance - transaction_amount) "A" ;;
       UPDATE_accounts (fun balance => balance + transaction_amount) "B" ;;
       COMMIT)) (idle T) =
    Err invalid_transaction_termination (Session (Some T) Aborted).
Proof. reflexivity. Qed.
